(** * prometheus.remote.queue: configuration types of the durable write queue

    A shallow embedding of
    [internal/component/prometheus/remote/queue/types.go] (package [queue])
    and of the parts of its collaborators that the configuration code
    touches.  Go structs are records, one module per struct so that the
    field names of the source are kept ([EndpointConfig.URL],
    [ConnectionConfig.URL], ...); a nullable pointer is an [option]; a Go
    [map[string]string] is an optional [gmap] ([None] is the nil map);
    [int], [uint] and [time.Duration] are integers in [Z] together with
    their machine ranges; a method with a pointer receiver is a computation
    in a small state monad over the pointee. *)

From Stdlib Require Import ZArith Lia.
From stdpp Require Import base option list strings gmap.

Local Open Scope Z_scope.

(** ** Machine integers *)

(** Go's [int] and [uint] are 64 bits wide on the platforms Alloy is built
    for; [time.Duration] is an [int64] everywhere. *)
Definition int_ok (z : Z) : Prop := - 2 ^ 63 <= z < 2 ^ 63.
Definition uint_ok (z : Z) : Prop := 0 <= z < 2 ^ 64.

(** ** Package [time] (Go standard library): durations in nanoseconds *)
Module time.
Definition Duration := Z.
Definition Nanosecond : Duration := 1.
Definition Microsecond : Duration := 1000 * Nanosecond.
Definition Millisecond : Duration := 1000 * Microsecond.
Definition Second : Duration := 1000 * Millisecond.
Definition Minute : Duration := 60 * Second.
Definition Hour : Duration := 60 * Minute.
End time.

(** ** A state monad for methods with a pointer receiver

    [Heap S A] is a computation that may read and write the value of type
    [S] its receiver points to, and returns an [A]. *)
Definition Heap (S A : Type) : Type := S -> A * S.

Definition hret {S A} (a : A) : Heap S A := fun s => (a, s).
Definition hbind {S A B} (m : Heap S A) (k : A -> Heap S B) : Heap S B :=
  fun s => let (a, s') := m s in k a s'.
(** [load] is a read through the pointer, [store v] is [*p = v]. *)
Definition load {S} : Heap S S := fun s => (s, s).
Definition store {S} (v : S) : Heap S unit := fun _ => (tt, v).

Notation "'let*' x ':=' m 'in' k" := (hbind m (fun x => k))
  (at level 10, x name, m at level 100, k at level 200,
   format "'[v' 'let*'  x  ':='  m  'in' '/' k ']'").

Definition result {S A} (m : Heap S A) (s : S) : A := fst (m s).
Definition final {S A} (m : Heap S A) (s : S) : S := snd (m s).

(** A computation is read-only when it hands back the state it was given. *)
Definition read_only {S A} (m : Heap S A) : Prop := forall s, final m s = s.

(** ** Go errors

    An [error] value is modelled by its message; the nil error is [None].
    [fmt.Errorf] with a format that has no verbs and no arguments yields an
    error whose message is the format itself. *)
Record error_value := { Error : string }.
Definition error := option error_value.
Definition nil_error : error := None.
Definition Errorf (format : string) : error := Some {| Error := format |}.

(** ** Package [alloytypes]: the secret wrapper *)
Module alloytypes.

(** Modelled from the spec: the declaration of [alloytypes.Secret] (package
    [syntax/alloytypes]) is not among the sources; its uses are.  The
    sources build a secret by the conversion [alloytypes.Secret("foo")] and
    read one by the conversion [string(cc.BasicAuth.Password)]: it is a
    defined type of its own over a string, and both are Go's plain
    conversions, which keep the characters.  [Secret_of] is the first
    conversion and [expose] the second. *)
Record Secret := Secret_of { expose : string }.

End alloytypes.

(** ** Package [queue/types]: the native connection configuration *)
Module types.

(** Modelled from the spec: the declaration of [types.BasicAuth] is not
    among the sources; its fields are the ones [ToNativeType] fills in,
    both plain strings. *)
Module BasicAuth.
Record t := mk { Username : string; Password : string }.
End BasicAuth.

(** Modelled from the spec: the declaration of [types.ConnectionConfig] is
    not among the sources; its fields and their types are the ones the
    composite literal in [ToNativeType] names. *)
Module ConnectionConfig.
Record t := mk {
  URL : string;
  BasicAuth : option BasicAuth.t;
  UserAgent : string;
  Timeout : time.Duration;
  RetryBackoff : time.Duration;
  MaxRetryBackoffAttempts : Z;
  BatchCount : Z;
  FlushFrequency : time.Duration;
  ExternalLabels : option (gmap string string);
  Connections : Z
}.
End ConnectionConfig.

End types.

(** ** Package [queue] *)

Module Serialization.
Record t := mk {
  (* The batch size to persist to the file queue. *)
  MaxSignalsToBatch : Z;
  (* How often to flush to the file queue if BatchSize isn't met. *)
  BatchFrequency : time.Duration
}.
End Serialization.

Module BasicAuth.
Record t := mk {
  Username : string;
  Password : alloytypes.Secret
}.
End BasicAuth.

(** EndpointConfig is the alloy specific version of ConnectionConfig. *)
Module EndpointConfig.
Record t := mk {
  Name : string;
  URL : string;
  BasicAuth : option BasicAuth.t;
  Timeout : time.Duration;
  (* How long to wait between retries. *)
  RetryBackoff : time.Duration;
  (* Maximum number of retries. *)
  MaxRetryBackoffAttempts : Z;
  (* How many series to write at a time. *)
  BatchCount : Z;
  (* How long to wait before sending regardless of batch count. *)
  FlushFrequency : time.Duration;
  (* How many concurrent queues to have. *)
  QueueCount : Z;
  ExternalLabels : option (gmap string string)
}.
End EndpointConfig.

Module Arguments.
Record t := mk {
  (* TTL is how old a series can be. *)
  TTL : time.Duration;
  Serialization : Serialization.t;
  Endpoints : list EndpointConfig.t
}.
End Arguments.

(** Zero values of the field types: the empty string, the nil pointer, the
    nil map and the nil slice. *)
Definition zero_string : string := "".

Definition defaultArgs : Arguments.t :=
  {| Arguments.TTL := 2 * time.Hour;
     Arguments.Serialization :=
       {| Serialization.MaxSignalsToBatch := 10000;
          Serialization.BatchFrequency := 5 * time.Second |};
     Arguments.Endpoints := [] |}.

(** SetToDefault sets the default *)
Definition Arguments_SetToDefault : Heap Arguments.t unit :=
  store defaultArgs.

Definition defaultEndpointConfig : EndpointConfig.t :=
  {| EndpointConfig.Name := zero_string;
     EndpointConfig.URL := zero_string;
     EndpointConfig.BasicAuth := None;
     EndpointConfig.Timeout := 30 * time.Second;
     EndpointConfig.RetryBackoff := 1 * time.Second;
     EndpointConfig.MaxRetryBackoffAttempts := 0;
     EndpointConfig.BatchCount := 1000;
     EndpointConfig.FlushFrequency := 1 * time.Second;
     EndpointConfig.QueueCount := 4;
     EndpointConfig.ExternalLabels := None |}.

Definition EndpointConfig_SetToDefault : Heap EndpointConfig.t unit :=
  store defaultEndpointConfig.

(** The body of the [range] loop of [Validate]: each endpoint is copied into
    [conn] and checked; the first failing check returns its error, and the
    end of the slice falls through to [return nil]. *)
Fixpoint Validate_range (conns : list EndpointConfig.t) : error :=
  match conns with
  | [] => nil_error
  | conn :: rest =>
      if conn.(EndpointConfig.BatchCount) <=? 0 then
        Errorf "batch_count must be greater than 0"
      else if conn.(EndpointConfig.FlushFrequency) <? 1 * time.Second then
        Errorf "flush_frequency must be greater or equal to 1s, the internal timers resolution is 1s"
      else Validate_range rest
  end.

Definition Arguments_Validate : Heap Arguments.t error :=
  let* r := load in
  hret (Validate_range r.(Arguments.Endpoints)).

(** The package-level variables of [queue].  [UserAgent] is a [var]: it is
    initialised once from the build's version string and can be assigned by
    any code of the process afterwards. *)
Module Globals.
Record t := mk { UserAgent : string }.
End Globals.

(** [var UserAgent = fmt.Sprintf("Alloy/%s", version.Version)] *)
Definition init_Globals (version_Version : string) : Globals.t :=
  {| Globals.UserAgent := "Alloy/" +:+ version_Version |}.

(** [ToNativeType] has a value receiver: it reads [cc] and the package
    variable [UserAgent], and writes neither. *)
Definition EndpointConfig_ToNativeType (g : Globals.t) (cc : EndpointConfig.t)
  : types.ConnectionConfig.t :=
  let tcc :=
    {| types.ConnectionConfig.URL := cc.(EndpointConfig.URL);
       types.ConnectionConfig.BasicAuth := None;
       types.ConnectionConfig.UserAgent := g.(Globals.UserAgent);
       types.ConnectionConfig.Timeout := cc.(EndpointConfig.Timeout);
       types.ConnectionConfig.RetryBackoff := cc.(EndpointConfig.RetryBackoff);
       types.ConnectionConfig.MaxRetryBackoffAttempts :=
         cc.(EndpointConfig.MaxRetryBackoffAttempts);
       types.ConnectionConfig.BatchCount := cc.(EndpointConfig.BatchCount);
       types.ConnectionConfig.FlushFrequency := cc.(EndpointConfig.FlushFrequency);
       types.ConnectionConfig.ExternalLabels := cc.(EndpointConfig.ExternalLabels);
       types.ConnectionConfig.Connections := cc.(EndpointConfig.QueueCount) |} in
  match cc.(EndpointConfig.BasicAuth) with
  | Some ba =>
      {| types.ConnectionConfig.URL := tcc.(types.ConnectionConfig.URL);
         types.ConnectionConfig.BasicAuth :=
           Some {| types.BasicAuth.Username := ba.(BasicAuth.Username);
                   types.BasicAuth.Password :=
                     alloytypes.expose ba.(BasicAuth.Password) |};
         types.ConnectionConfig.UserAgent := tcc.(types.ConnectionConfig.UserAgent);
         types.ConnectionConfig.Timeout := tcc.(types.ConnectionConfig.Timeout);
         types.ConnectionConfig.RetryBackoff := tcc.(types.ConnectionConfig.RetryBackoff);
         types.ConnectionConfig.MaxRetryBackoffAttempts :=
           tcc.(types.ConnectionConfig.MaxRetryBackoffAttempts);
         types.ConnectionConfig.BatchCount := tcc.(types.ConnectionConfig.BatchCount);
         types.ConnectionConfig.FlushFrequency := tcc.(types.ConnectionConfig.FlushFrequency);
         types.ConnectionConfig.ExternalLabels := tcc.(types.ConnectionConfig.ExternalLabels);
         types.ConnectionConfig.Connections := tcc.(types.ConnectionConfig.Connections) |}
  | None => tcc
  end.

(** The native credentials built from an endpoint's [basic_auth] block. *)
Definition native_BasicAuth (ba : BasicAuth.t) : types.BasicAuth.t :=
  {| types.BasicAuth.Username := ba.(BasicAuth.Username);
     types.BasicAuth.Password := alloytypes.expose ba.(BasicAuth.Password) |}.

(** ** Record updates used in the statements *)

Definition with_Endpoints (l : list EndpointConfig.t) (r : Arguments.t)
  : Arguments.t :=
  {| Arguments.TTL := r.(Arguments.TTL);
     Arguments.Serialization := r.(Arguments.Serialization);
     Arguments.Endpoints := l |}.

Definition with_BatchCount (n : Z) (cc : EndpointConfig.t) : EndpointConfig.t :=
  {| EndpointConfig.Name := cc.(EndpointConfig.Name);
     EndpointConfig.URL := cc.(EndpointConfig.URL);
     EndpointConfig.BasicAuth := cc.(EndpointConfig.BasicAuth);
     EndpointConfig.Timeout := cc.(EndpointConfig.Timeout);
     EndpointConfig.RetryBackoff := cc.(EndpointConfig.RetryBackoff);
     EndpointConfig.MaxRetryBackoffAttempts :=
       cc.(EndpointConfig.MaxRetryBackoffAttempts);
     EndpointConfig.BatchCount := n;
     EndpointConfig.FlushFrequency := cc.(EndpointConfig.FlushFrequency);
     EndpointConfig.QueueCount := cc.(EndpointConfig.QueueCount);
     EndpointConfig.ExternalLabels := cc.(EndpointConfig.ExternalLabels) |}.

Definition with_FlushFrequency (d : time.Duration) (cc : EndpointConfig.t)
  : EndpointConfig.t :=
  {| EndpointConfig.Name := cc.(EndpointConfig.Name);
     EndpointConfig.URL := cc.(EndpointConfig.URL);
     EndpointConfig.BasicAuth := cc.(EndpointConfig.BasicAuth);
     EndpointConfig.Timeout := cc.(EndpointConfig.Timeout);
     EndpointConfig.RetryBackoff := cc.(EndpointConfig.RetryBackoff);
     EndpointConfig.MaxRetryBackoffAttempts :=
       cc.(EndpointConfig.MaxRetryBackoffAttempts);
     EndpointConfig.BatchCount := cc.(EndpointConfig.BatchCount);
     EndpointConfig.FlushFrequency := d;
     EndpointConfig.QueueCount := cc.(EndpointConfig.QueueCount);
     EndpointConfig.ExternalLabels := cc.(EndpointConfig.ExternalLabels) |}.

Definition with_Name (n : string) (cc : EndpointConfig.t) : EndpointConfig.t :=
  {| EndpointConfig.Name := n;
     EndpointConfig.URL := cc.(EndpointConfig.URL);
     EndpointConfig.BasicAuth := cc.(EndpointConfig.BasicAuth);
     EndpointConfig.Timeout := cc.(EndpointConfig.Timeout);
     EndpointConfig.RetryBackoff := cc.(EndpointConfig.RetryBackoff);
     EndpointConfig.MaxRetryBackoffAttempts :=
       cc.(EndpointConfig.MaxRetryBackoffAttempts);
     EndpointConfig.BatchCount := cc.(EndpointConfig.BatchCount);
     EndpointConfig.FlushFrequency := cc.(EndpointConfig.FlushFrequency);
     EndpointConfig.QueueCount := cc.(EndpointConfig.QueueCount);
     EndpointConfig.ExternalLabels := cc.(EndpointConfig.ExternalLabels) |}.

Definition with_BasicAuth (b : option BasicAuth.t) (cc : EndpointConfig.t)
  : EndpointConfig.t :=
  {| EndpointConfig.Name := cc.(EndpointConfig.Name);
     EndpointConfig.URL := cc.(EndpointConfig.URL);
     EndpointConfig.BasicAuth := b;
     EndpointConfig.Timeout := cc.(EndpointConfig.Timeout);
     EndpointConfig.RetryBackoff := cc.(EndpointConfig.RetryBackoff);
     EndpointConfig.MaxRetryBackoffAttempts :=
       cc.(EndpointConfig.MaxRetryBackoffAttempts);
     EndpointConfig.BatchCount := cc.(EndpointConfig.BatchCount);
     EndpointConfig.FlushFrequency := cc.(EndpointConfig.FlushFrequency);
     EndpointConfig.QueueCount := cc.(EndpointConfig.QueueCount);
     EndpointConfig.ExternalLabels := cc.(EndpointConfig.ExternalLabels) |}.

(** Values a running program can hold: every integer field is in the range
    of its Go type. *)
Record EndpointConfig_wf (cc : EndpointConfig.t) : Prop := {
  wf_Timeout : int_ok cc.(EndpointConfig.Timeout);
  wf_RetryBackoff : int_ok cc.(EndpointConfig.RetryBackoff);
  wf_MaxRetryBackoffAttempts : uint_ok cc.(EndpointConfig.MaxRetryBackoffAttempts);
  wf_BatchCount : int_ok cc.(EndpointConfig.BatchCount);
  wf_FlushFrequency : int_ok cc.(EndpointConfig.FlushFrequency);
  wf_QueueCount : uint_ok cc.(EndpointConfig.QueueCount)
}.

Record Arguments_wf (r : Arguments.t) : Prop := {
  wf_TTL : int_ok r.(Arguments.TTL);
  wf_MaxSignalsToBatch :
    int_ok r.(Arguments.Serialization).(Serialization.MaxSignalsToBatch);
  wf_BatchFrequency :
    int_ok r.(Arguments.Serialization).(Serialization.BatchFrequency);
  wf_Endpoints : Forall EndpointConfig_wf r.(Arguments.Endpoints)
}.

(** ** What [Validate] refuses *)

(** An endpoint is refused when [batch_count <= 0] or
    [flush_frequency < 1s]. *)
Definition refused (conn : EndpointConfig.t) : Prop :=
  conn.(EndpointConfig.BatchCount) <= 0 \/
  conn.(EndpointConfig.FlushFrequency) < time.Second.

Definition refusedb (conn : EndpointConfig.t) : bool :=
  (conn.(EndpointConfig.BatchCount) <=? 0) ||
  (conn.(EndpointConfig.FlushFrequency) <? time.Second).

(** Modelled from the spec: the start-up gate of the component framework,
    which is not among the sources.  "Validation fails fast (before the
    engine starts)" and "ConfigValidationError - fatal at startup; engine
    does not start": the engine is built from arguments only after
    [Validate] returned nil. *)
Inductive Startup :=
  | EngineStarted (args : Arguments.t)
  | ConfigValidationError (e : error_value).

Definition start (args : Arguments.t) : Startup :=
  match result Arguments_Validate args with
  | Some e => ConfigValidationError e
  | None => EngineStarted args
  end.

Definition engine_started (s : Startup) : bool :=
  match s with EngineStarted _ => true | ConfigValidationError _ => false end.

(** ** Observations of a secret *)



(** ** The ingestion path of the engine *)
Module engine.

(** Modelled from the spec: the appender adapter, the shard router, the
    batcher and the durable queue are not among the sources.  The
    definitions of this module follow sections 3, 4.1, 4.2, 4.3 and 4.4 of
    the specification: a sample is (series identity, timestamp, value); a
    series identity is a label set with unique string keys. *)
Record Sample := {
  series : gmap string string;
  timestamp : Z;
  value : Z
}.

Inductive DropReason := StaleSample.
Inductive AppendResult := Accepted | Dropped (reason : DropReason).

(** Modelled from the spec: a sealed batch, "an ordered sequence of samples
    [...] has a creation timestamp and a monotonically increasing sequence
    number per shard". *)
Record Batch := {
  samples : list Sample;
  created : Z;
  seq : nat
}.

(** Modelled from the spec: a shard owns the batch under construction, the
    time at which that batch began, the next sequence number, and its
    durable queue, the FIFO of persisted batches (oldest first). *)
Record Shard := {
  active : list Sample;
  began : Z;
  next_seq : nat;
  persisted : list Batch
}.

(** Modelled from the spec: endpoint fanout; one full shard set per
    configured endpoint, and the counter of stale samples. *)
Record Engine := {
  fanout : list (list Shard);
  stale_dropped : nat
}.

Definition empty_shard : Shard :=
  {| active := []; began := 0; next_seq := 0; persisted := [] |}.

Definition new (args : Arguments.t) : Engine :=
  {| fanout :=
       (fun cc => replicate (Z.to_nat cc.(EndpointConfig.QueueCount)) empty_shard)
         <$> args.(Arguments.Endpoints);
     stale_dropped := 0 |}.

Section Engine.
(** The hash of a series identity is left open by the spec: "pure
    deterministic hash of the series identity". *)
Variable hash : gmap string string -> Z.
Variable args : Arguments.t.

Let ttl := args.(Arguments.TTL).
Let max_signals_to_batch :=
  args.(Arguments.Serialization).(Serialization.MaxSignalsToBatch).
Let batch_frequency :=
  args.(Arguments.Serialization).(Serialization.BatchFrequency).

(** Modelled from the spec: "sample timestamp must be within
    [now - ttl, now]". *)
Definition within_ttl (now : Z) (s : Sample) : bool :=
  (now - ttl <=? s.(timestamp)) && (s.(timestamp) <=? now).

(** Modelled from the spec: [shard_of(series) -> index], the hash modulo
    [queue_count]. *)
Definition shard_of (queue_count : nat) (s : gmap string string) : nat :=
  Z.to_nat (hash s mod Z.of_nat queue_count).

(** Modelled from the spec: on flush the batch is sealed, given a
    sequence number and handed to the durable queue, and a new empty
    batch begins. *)
Definition seal (now : Z) (sh : Shard) : Shard :=
  {| active := [];
     began := now;
     next_seq := S sh.(next_seq);
     persisted :=
       sh.(persisted) ++
       [{| samples := sh.(active); created := now; seq := sh.(next_seq) |}] |}.

(** Modelled from the spec: the batcher adds an accepted sample to the
    active batch of its shard and flushes when the count reaches
    [max_signals_to_batch]. *)
Definition batcher_add (now : Z) (s : Sample) (sh : Shard) : Shard :=
  let sh' :=
    {| active := sh.(active) ++ [s];
       began := if bool_decide (sh.(active) = []) then now else sh.(began);
       next_seq := sh.(next_seq);
       persisted := sh.(persisted) |} in
  if max_signals_to_batch <=? Z.of_nat (length sh'.(active))
  then seal now sh' else sh'.

(** Modelled from the spec: the time trigger flushes a batch once
    [batch_frequency] has elapsed since it began. *)
Definition batcher_tick (now : Z) (sh : Shard) : Shard :=
  if bool_decide (sh.(active) = []) then sh
  else if batch_frequency <=? now - sh.(began) then seal now sh else sh.

Definition route (now : Z) (s : Sample) (shards : list Shard) : list Shard :=
  alter (batcher_add now s) (shard_of (length shards) s.(series)) shards.

(** Modelled from the spec: [append(series, sample) -> Accepted |
    Dropped(reason)]; a sample outside [now - ttl, now] is dropped as
    [StaleSample] and counted, an accepted one is pushed into every
    endpoint's shard set. *)
Definition append (now : Z) (s : Sample) (e : Engine)
  : AppendResult * Engine :=
  if within_ttl now s then
    (Accepted,
     {| fanout := route now s <$> e.(fanout);
        stale_dropped := e.(stale_dropped) |})
  else
    (Dropped StaleSample,
     {| fanout := e.(fanout);
        stale_dropped := S e.(stale_dropped) |}).

Definition tick (now : Z) (e : Engine) : Engine :=
  {| fanout :=
       (fun shards : list Shard => batcher_tick now <$> shards) <$> e.(fanout);
     stale_dropped := e.(stale_dropped) |}.

(** What happens to an engine over time: samples are appended and timers
    fire, each at some clock reading. *)
Inductive Event :=
  | Append (now : Z) (s : Sample)
  | Tick (now : Z).

Definition step (e : Engine) (ev : Event) : Engine :=
  match ev with
  | Append now s => snd (append now s e)
  | Tick now => tick now e
  end.

Definition run (evs : list Event) (e : Engine) : Engine :=
  foldl step e evs.

(** All batches in the durable queues of an engine, over every endpoint
    and shard. *)
Definition persisted_batches (e : Engine) : list Batch :=
  shards ← e.(fanout); sh ← shards; sh.(persisted).

(** Every sample a shard holds, in its active batch or in a persisted
    one, satisfies [P]; and the same for every shard of an engine. *)
Definition shard_ok (P : Sample -> Prop) (sh : Shard) : Prop :=
  Forall P sh.(active) /\
  Forall (fun b => Forall P b.(samples)) sh.(persisted).

Definition engine_ok (P : Sample -> Prop) (e : Engine) : Prop :=
  Forall (Forall (shard_ok P)) e.(fanout).

(** [s] was appended, within the TTL window of that moment, in [evs]. *)
Definition accepted_in (evs : list Event) (s : Sample) : Prop :=
  exists now, Append now s ∈ evs /\ now - ttl <= s.(timestamp) <= now.
End Engine.

End engine.

(** ** Outcomes of [Validate] and compositions of the methods *)

(** The two errors [Validate] can build. *)
Definition batch_count_error : error :=
  Errorf "batch_count must be greater than 0".
Definition flush_frequency_error : error :=
  Errorf "flush_frequency must be greater or equal to 1s, the internal timers resolution is 1s".

(** The two fields of an endpoint that the loop of [Validate] reads. *)
Definition checked_fields (conn : EndpointConfig.t) : Z * time.Duration :=
  (conn.(EndpointConfig.BatchCount), conn.(EndpointConfig.FlushFrequency)).

(** [rc.SetToDefault()] followed by [rc.Validate()] on the same receiver. *)
Definition SetToDefault_then_Validate : Heap Arguments.t error :=
  let* _ := Arguments_SetToDefault in
  Arguments_Validate.

(** The native configurations of all the endpoints of an [Arguments] value,
    in order. *)
Definition native_endpoints (g : Globals.t) (r : Arguments.t)
  : list types.ConnectionConfig.t :=
  EndpointConfig_ToNativeType g <$> r.(Arguments.Endpoints).

(** * Properties *)

(** ** The state monad *)

Lemma result_bind {S A B} (m : Heap S A) (k : A -> Heap S B) (s : S) :
  result (hbind m k) s = result (k (result m s)) (final m s).
Proof. unfold result, final, hbind. destruct (m s) as [a s']. reflexivity. Qed.

Lemma final_bind {S A B} (m : Heap S A) (k : A -> Heap S B) (s : S) :
  final (hbind m k) s = final (k (result m s)) (final m s).
Proof. unfold result, final, hbind. destruct (m s) as [a s']. reflexivity. Qed.

Lemma read_only_ret {S A} (a : A) : read_only (S := S) (hret a).
Proof. intros s. reflexivity. Qed.

Lemma read_only_load {S} : read_only (S := S) load.
Proof. intros s. reflexivity. Qed.

Lemma read_only_bind {S A B} (m : Heap S A) (k : A -> Heap S B) :
  read_only m -> (forall a, read_only (k a)) -> read_only (hbind m k).
Proof.
  intros Hm Hk s. rewrite final_bind, Hm. apply Hk.
Qed.

Create HintDb frame.
#[local] Hint Resolve read_only_ret read_only_load read_only_bind : frame.

(** ** Durations *)

(** Closes a goal [int_ok c] or [uint_ok c] for a constant [c]. *)
Ltac in_range :=
  unfold int_ok, uint_ok; split; [apply Z.leb_le | apply Z.ltb_lt]; reflexivity.

Lemma Second_ns : time.Second = 1000000000.
Proof. reflexivity. Qed.

(** ** Validate *)

Lemma refusedb_spec (conn : EndpointConfig.t) :
  refusedb conn = true <-> refused conn.
Proof.
  unfold refusedb, refused.
  rewrite orb_true_iff, Z.leb_le, Z.ltb_lt. reflexivity.
Qed.

Lemma Validate_range_cons (conn : EndpointConfig.t) rest :
  Validate_range (conn :: rest) =
  if conn.(EndpointConfig.BatchCount) <=? 0 then
    Errorf "batch_count must be greater than 0"
  else if conn.(EndpointConfig.FlushFrequency) <? time.Second then
    Errorf "flush_frequency must be greater or equal to 1s, the internal timers resolution is 1s"
  else Validate_range rest.
Proof. reflexivity. Qed.

(** The loop returns an error exactly when it meets a refused endpoint. *)
Lemma Validate_range_error (conns : list EndpointConfig.t) :
  Validate_range conns <> nil_error <-> Exists refused conns.
Proof.
  induction conns as [|conn rest IH].
  - simpl. rewrite Exists_nil. unfold nil_error. tauto.
  - rewrite Validate_range_cons, Exists_cons, <- IH. unfold refused.
    destruct (Z.leb_spec conn.(EndpointConfig.BatchCount) 0) as [Hb|Hb].
    + split; [intros _; left; left; exact Hb | intros _; discriminate].
    + destruct (Z.ltb_spec conn.(EndpointConfig.FlushFrequency) time.Second)
        as [Hf|Hf].
      * split; [intros _; left; right; exact Hf | intros _; discriminate].
      * split; [intros H; right; exact H | intros [[H|H]|H]; [lia | lia | exact H]].
Qed.

(** The same, as a check that can be run. *)
Lemma Validate_range_error_b (conns : list EndpointConfig.t) :
  Validate_range conns <> nil_error <-> existsb refusedb conns = true.
Proof.
  rewrite Validate_range_error, existsb_exists, Exists_exists.
  split; intros (conn & Hin & Hr); exists conn.
  - split; [apply list_elem_of_In, Hin | apply refusedb_spec, Hr].
  - split; [apply list_elem_of_In, Hin | apply refusedb_spec, Hr].
Qed.

Lemma Validate_range_nil_iff (conns : list EndpointConfig.t) :
  Validate_range conns = nil_error <-> Forall (fun c => ~ refused c) conns.
Proof.
  rewrite Forall_Exists_neg, <- Validate_range_error.
  destruct (Validate_range conns); unfold nil_error; split; intros H;
    try congruence; try tauto.
  exfalso. apply H. discriminate.
Qed.

Lemma Validate_result (r : Arguments.t) :
  result Arguments_Validate r = Validate_range r.(Arguments.Endpoints).
Proof. reflexivity. Qed.

Lemma Validate_read_only : read_only Arguments_Validate.
Proof. unfold Arguments_Validate. auto with frame. Qed.

Lemma start_refused (r : Arguments.t) :
  result Arguments_Validate r <> nil_error -> engine_started (start r) = false.
Proof.
  unfold start. destruct (result Arguments_Validate r); [reflexivity|].
  intros H. exfalso. apply H. reflexivity.
Qed.

(** [Validate] on concrete configurations: the defaults with one endpoint
    pass; [batch_count = 0] and [flush_frequency = 500ms] fail, each with
    its own message; of two bad endpoints the first one is reported, and
    within one endpoint [batch_count] is checked first. *)
Lemma Validate_examples :
  let ok := defaultEndpointConfig in
  let no_batch := with_BatchCount 0 defaultEndpointConfig in
  let fast := with_FlushFrequency (500 * time.Millisecond) defaultEndpointConfig in
  result Arguments_Validate defaultArgs = nil_error
  /\ result Arguments_Validate (with_Endpoints [ok; ok] defaultArgs) = nil_error
  /\ result Arguments_Validate (with_Endpoints [ok; no_batch] defaultArgs) =
     Errorf "batch_count must be greater than 0"
  /\ result Arguments_Validate (with_Endpoints [fast; no_batch] defaultArgs) =
     Errorf "flush_frequency must be greater or equal to 1s, the internal timers resolution is 1s"
  /\ result Arguments_Validate
       (with_Endpoints [with_BatchCount (-1) fast] defaultArgs) =
     Errorf "batch_count must be greater than 0"
  /\ Arguments_wf (with_Endpoints [fast; no_batch] defaultArgs).
Proof.
  intros ok no_batch fast. do 5 (split; [reflexivity|]).
  split; try in_range. simpl.
  repeat (apply Forall_cons_2; [split; in_range|]). apply Forall_nil_2.
Qed.

(** C1.  [Validate] returns an error if and only if some configured
    endpoint has [batch_count <= 0] or [flush_frequency < 1s]; an endpoint
    with [batch_count = 0], or with [flush_frequency = 500ms], anywhere in
    the list makes it fail; and when it fails the engine is not started. *)
Theorem Validate_error_iff_refused_endpoint :
  forall r : Arguments.t,
    (result Arguments_Validate r <> nil_error <->
     exists conn, conn ∈ r.(Arguments.Endpoints) /\
       (conn.(EndpointConfig.BatchCount) <= 0 \/
        conn.(EndpointConfig.FlushFrequency) < 1000000000))
    /\ (forall pre post conn,
          result Arguments_Validate
            (with_Endpoints (pre ++ with_BatchCount 0 conn :: post) r)
          <> nil_error)
    /\ (forall pre post conn,
          result Arguments_Validate
            (with_Endpoints
               (pre ++ with_FlushFrequency (500 * time.Millisecond) conn :: post) r)
          <> nil_error)
    /\ (result Arguments_Validate r <> nil_error ->
        engine_started (start r) = false)
    /\ (result Arguments_Validate r = nil_error -> start r = EngineStarted r).
Proof.
  intros r. rewrite Validate_result, Validate_range_error, Exists_exists.
  split; [reflexivity|].
  split; [|split; [|split]].
  - intros pre post conn. rewrite Validate_result. apply Validate_range_error.
    simpl. apply Exists_app. right. apply Exists_cons_hd. left. simpl. lia.
  - intros pre post conn. rewrite Validate_result. apply Validate_range_error.
    simpl. apply Exists_app. right. apply Exists_cons_hd. right. simpl.
    rewrite Second_ns. unfold time.Millisecond, time.Microsecond, time.Nanosecond.
    lia.
  - rewrite <- Exists_exists, <- Validate_range_error, <- Validate_result.
    apply start_refused.
  - intros H. unfold start. rewrite Validate_result, H. reflexivity.
Qed.

(** The statement above at a configuration whose second endpoint has
    [batch_count = 0]: [Validate] fails and the engine is not started. *)
Lemma Validate_error_iff_refused_endpoint_witness :
  let r :=
    with_Endpoints
      [defaultEndpointConfig; with_BatchCount 0 defaultEndpointConfig]
      defaultArgs in
  (exists conn, conn ∈ r.(Arguments.Endpoints) /\
     (conn.(EndpointConfig.BatchCount) <= 0 \/
      conn.(EndpointConfig.FlushFrequency) < 1000000000))
  /\ result Arguments_Validate r <> nil_error
  /\ engine_started (start r) = false.
Proof.
  intros r.
  assert (exists conn, conn ∈ r.(Arguments.Endpoints) /\
            (conn.(EndpointConfig.BatchCount) <= 0 \/
             conn.(EndpointConfig.FlushFrequency) < 1000000000)) as H.
  { exists (with_BatchCount 0 defaultEndpointConfig). split.
    - right. left.
    - left. simpl. lia. }
  destruct (Validate_error_iff_refused_endpoint r) as (Hiff & _ & _ & Hstart & _).
  split; [exact H|]. split; [apply Hiff, H | apply Hstart, Hiff, H].
Defined.

(** ** Defaults *)

Lemma SetToDefault_final (rc : Arguments.t) :
  final Arguments_SetToDefault rc = defaultArgs.
Proof. reflexivity. Qed.

Lemma EndpointConfig_SetToDefault_final (cc : EndpointConfig.t) :
  final EndpointConfig_SetToDefault cc = defaultEndpointConfig.
Proof. reflexivity. Qed.

Lemma defaultEndpointConfig_wf : EndpointConfig_wf defaultEndpointConfig.
Proof. split; in_range. Qed.

Lemma defaultArgs_wf : Arguments_wf defaultArgs.
Proof. split; try in_range. constructor. Qed.

(** C2.  Whatever they are called on, the two [SetToDefault] methods leave
    the defaults of the configuration table: ttl 2h, max_signals_to_batch
    10000, batch_frequency 5s, write_timeout 30s, retry_backoff 1s,
    max_retry_backoff_attempts 0, batch_count 1000, flush_frequency 1s,
    queue_count 4 (durations in nanoseconds), no endpoint, no credentials
    and no external labels. *)
Theorem SetToDefault_spec_defaults :
  forall (rc : Arguments.t) (cc : EndpointConfig.t),
    let a := final Arguments_SetToDefault rc in
    let e := final EndpointConfig_SetToDefault cc in
    a.(Arguments.TTL) = 2 * 3600 * 1000000000
    /\ a.(Arguments.Serialization).(Serialization.MaxSignalsToBatch) = 10000
    /\ a.(Arguments.Serialization).(Serialization.BatchFrequency) = 5 * 1000000000
    /\ a.(Arguments.Endpoints) = []
    /\ e.(EndpointConfig.Timeout) = 30 * 1000000000
    /\ e.(EndpointConfig.RetryBackoff) = 1 * 1000000000
    /\ e.(EndpointConfig.MaxRetryBackoffAttempts) = 0
    /\ e.(EndpointConfig.BatchCount) = 1000
    /\ e.(EndpointConfig.FlushFrequency) = 1 * 1000000000
    /\ e.(EndpointConfig.QueueCount) = 4
    /\ e.(EndpointConfig.BasicAuth) = None
    /\ e.(EndpointConfig.ExternalLabels) = None
    /\ e.(EndpointConfig.Name) = "" /\ e.(EndpointConfig.URL) = "".
Proof.
  intros rc cc a e. subst a e.
  rewrite SetToDefault_final, EndpointConfig_SetToDefault_final.
  repeat split.
Qed.

(** C9.  [SetToDefault] overwrites the whole [Arguments] value: the result
    is the default configuration whatever the prior state, so two different
    prior states end equal, and the endpoints configured before are gone. *)
Theorem SetToDefault_discards_prior_state :
  forall rc rc' : Arguments.t,
    final Arguments_SetToDefault rc = defaultArgs
    /\ final Arguments_SetToDefault rc = final Arguments_SetToDefault rc'
    /\ (final Arguments_SetToDefault rc).(Arguments.Endpoints) = []
    /\ length (final Arguments_SetToDefault rc).(Arguments.Endpoints) = 0%nat.
Proof.
  intros rc rc'. rewrite !SetToDefault_final. repeat split.
Qed.

(** C10.  [Validate] leaves the [Arguments] value it checks as it found it,
    field by field, whether it returns nil or an error. *)
Theorem Validate_preserves_arguments :
  forall r : Arguments.t,
    let r' := final Arguments_Validate r in
    r' = r
    /\ r'.(Arguments.TTL) = r.(Arguments.TTL)
    /\ r'.(Arguments.Serialization) = r.(Arguments.Serialization)
    /\ r'.(Arguments.Endpoints) = r.(Arguments.Endpoints)
    /\ (forall i, r'.(Arguments.Endpoints) !! i = r.(Arguments.Endpoints) !! i).
Proof.
  intros r r'. subst r'. rewrite (Validate_read_only r). repeat split.
Qed.

(** ** ToNativeType *)

Lemma ToNativeType_BasicAuth (g : Globals.t) (cc : EndpointConfig.t) :
  (EndpointConfig_ToNativeType g cc).(types.ConnectionConfig.BasicAuth) =
  native_BasicAuth <$> cc.(EndpointConfig.BasicAuth).
Proof.
  unfold EndpointConfig_ToNativeType.
  destruct cc.(EndpointConfig.BasicAuth); reflexivity.
Qed.

Lemma ToNativeType_UserAgent (g : Globals.t) (cc : EndpointConfig.t) :
  (EndpointConfig_ToNativeType g cc).(types.ConnectionConfig.UserAgent) =
  g.(Globals.UserAgent).
Proof.
  unfold EndpointConfig_ToNativeType.
  destruct cc.(EndpointConfig.BasicAuth); reflexivity.
Qed.

Ltac native_field cc :=
  unfold EndpointConfig_ToNativeType;
  destruct cc.(EndpointConfig.BasicAuth); reflexivity.

(** C6.  The native configuration has no [BasicAuth] exactly when the
    endpoint has none, and otherwise carries the endpoint's [Username] and
    the string value of its [Password]; the default endpoint has none. *)
Theorem ToNativeType_maps_basic_auth :
  forall (g : Globals.t) (cc : EndpointConfig.t),
    let tcc := EndpointConfig_ToNativeType g cc in
    (tcc.(types.ConnectionConfig.BasicAuth) = None <->
     cc.(EndpointConfig.BasicAuth) = None)
    /\ (forall ba, cc.(EndpointConfig.BasicAuth) = Some ba ->
          exists nb, tcc.(types.ConnectionConfig.BasicAuth) = Some nb
            /\ nb.(types.BasicAuth.Username) = ba.(BasicAuth.Username)
            /\ nb.(types.BasicAuth.Password) =
               alloytypes.expose ba.(BasicAuth.Password))
    /\ defaultEndpointConfig.(EndpointConfig.BasicAuth) = None
    /\ (forall cc0, (final EndpointConfig_SetToDefault cc0).(EndpointConfig.BasicAuth)
          = None).
Proof.
  intros g cc tcc. subst tcc. rewrite ToNativeType_BasicAuth.
  split; [|split; [|split]].
  - destruct cc.(EndpointConfig.BasicAuth); simpl; split; congruence.
  - intros ba ->. exists (native_BasicAuth ba). repeat split.
  - reflexivity.
  - intros cc0. reflexivity.
Qed.

(** The statement above at an endpoint with credentials: the native
    configuration carries the user name and the password's string. *)
Lemma ToNativeType_maps_basic_auth_witness :
  let ba := BasicAuth.mk "user" (alloytypes.Secret_of "hunter2") in
  let cc := with_BasicAuth (Some ba) defaultEndpointConfig in
  cc.(EndpointConfig.BasicAuth) = Some ba
  /\ exists nb,
       (EndpointConfig_ToNativeType (init_Globals "v1.5.0") cc).(types.ConnectionConfig.BasicAuth)
         = Some nb
       /\ nb.(types.BasicAuth.Username) = "user"
       /\ nb.(types.BasicAuth.Password) = "hunter2".
Proof.
  intros ba cc. split; [reflexivity|].
  destruct (ToNativeType_maps_basic_auth (init_Globals "v1.5.0") cc)
    as (_ & Hsome & _).
  exact (Hsome ba eq_refl).
Defined.

(** C8.  [ToNativeType] copies URL, Timeout, RetryBackoff,
    MaxRetryBackoffAttempts, BatchCount, FlushFrequency and ExternalLabels,
    puts QueueCount into Connections, and its result does not depend on the
    endpoint's Name. *)
Theorem ToNativeType_carries_fields :
  forall (g : Globals.t) (cc : EndpointConfig.t),
    let tcc := EndpointConfig_ToNativeType g cc in
    tcc.(types.ConnectionConfig.URL) = cc.(EndpointConfig.URL)
    /\ tcc.(types.ConnectionConfig.Timeout) = cc.(EndpointConfig.Timeout)
    /\ tcc.(types.ConnectionConfig.RetryBackoff) = cc.(EndpointConfig.RetryBackoff)
    /\ tcc.(types.ConnectionConfig.MaxRetryBackoffAttempts) =
       cc.(EndpointConfig.MaxRetryBackoffAttempts)
    /\ tcc.(types.ConnectionConfig.BatchCount) = cc.(EndpointConfig.BatchCount)
    /\ tcc.(types.ConnectionConfig.FlushFrequency) =
       cc.(EndpointConfig.FlushFrequency)
    /\ tcc.(types.ConnectionConfig.ExternalLabels) =
       cc.(EndpointConfig.ExternalLabels)
    /\ tcc.(types.ConnectionConfig.Connections) = cc.(EndpointConfig.QueueCount)
    /\ (forall name, EndpointConfig_ToNativeType g (with_Name name cc) = tcc).
Proof.
  intros g cc tcc. subst tcc.
  repeat split; try native_field cc.
Qed.

(** ** The user agent *)

Lemma init_Globals_UserAgent (v : string) :
  (init_Globals v).(Globals.UserAgent) = "Alloy/" +:+ v.
Proof. reflexivity. Qed.

(** C5, as stated, fails: the same endpoint configuration converts to two
    different native configurations under two values of the package
    variable [UserAgent] (the one set at initialisation of a v1.5.0 build,
    and one assigned later). *)
Lemma ToNativeType_reads_global_UserAgent :
  let cc := defaultEndpointConfig in
  let g1 := init_Globals "v1.5.0" in
  let g2 := {| Globals.UserAgent := "curl/8.0" |} in
  EndpointConfig_ToNativeType g1 cc <> EndpointConfig_ToNativeType g2 cc.
Proof. intros cc g1 g2. subst cc g1 g2. discriminate. Qed.

(** C5, amended.  The user agent of the native configuration is the current
    value of the package variable [UserAgent]; the result of [ToNativeType]
    is determined by the endpoint configuration together with that
    variable: two calls on the same endpoint agree exactly when the
    variable holds the same string at both. *)
Theorem ToNativeType_determined_by_config_and_UserAgent :
  forall (g1 g2 : Globals.t) (cc : EndpointConfig.t),
    (EndpointConfig_ToNativeType g1 cc).(types.ConnectionConfig.UserAgent) =
      g1.(Globals.UserAgent)
    /\ (EndpointConfig_ToNativeType g1 cc = EndpointConfig_ToNativeType g2 cc <->
        g1.(Globals.UserAgent) = g2.(Globals.UserAgent)).
Proof.
  intros g1 g2 cc. split; [apply ToNativeType_UserAgent|]. split.
  - intros H. rewrite <- (ToNativeType_UserAgent g1 cc), H.
    apply ToNativeType_UserAgent.
  - intros H. unfold EndpointConfig_ToNativeType. rewrite H. reflexivity.
Qed.

(** ** Secrets *)




(** ** The ingestion path *)

Section EngineProperties.
Import engine.
Variable hash : gmap string string -> Z.
Variable args : Arguments.t.

Lemma within_ttl_spec (now : Z) (s : Sample) :
  within_ttl args now s = true <->
  now - args.(Arguments.TTL) <= s.(timestamp) <= now.
Proof.
  unfold within_ttl. rewrite andb_true_iff, !Z.leb_le. reflexivity.
Qed.

Lemma shard_ok_mono (P Q : Sample -> Prop) (sh : Shard) :
  (forall s, P s -> Q s) -> shard_ok P sh -> shard_ok Q sh.
Proof.
  intros HPQ [Ha Hp]. split.
  - eapply Forall_impl; [exact Ha|exact HPQ].
  - eapply Forall_impl; [exact Hp|]. intros b Hb.
    eapply Forall_impl; [exact Hb|exact HPQ].
Qed.

Lemma engine_ok_mono (P Q : Sample -> Prop) (e : Engine) :
  (forall s, P s -> Q s) -> engine_ok P e -> engine_ok Q e.
Proof.
  intros HPQ He. unfold engine_ok in *.
  eapply Forall_impl; [exact He|]. intros shards Hs.
  eapply Forall_impl; [exact Hs|]. intros sh. apply shard_ok_mono, HPQ.
Qed.

Lemma seal_ok (P : Sample -> Prop) (now : Z) (sh : Shard) :
  shard_ok P sh -> shard_ok P (seal now sh).
Proof.
  intros [Ha Hp]. split; simpl.
  - constructor.
  - apply Forall_app. split; [exact Hp|]. constructor; [exact Ha|constructor].
Qed.

Lemma batcher_add_ok (P : Sample -> Prop) (now : Z) (s : Sample) (sh : Shard) :
  P s -> shard_ok P sh -> shard_ok P (batcher_add args now s sh).
Proof.
  intros Hs [Ha Hp]. unfold batcher_add.
  match goal with |- shard_ok _ (if _ then seal _ ?x else _) =>
    assert (shard_ok P x) as Hx
  end.
  { split; simpl; [|exact Hp]. apply Forall_app. split; [exact Ha|].
    constructor; [exact Hs|constructor]. }
  case (_ <=? _); [apply seal_ok|]; exact Hx.
Qed.

Lemma batcher_tick_ok (P : Sample -> Prop) (now : Z) (sh : Shard) :
  shard_ok P sh -> shard_ok P (batcher_tick args now sh).
Proof.
  intros Hsh. unfold batcher_tick.
  case (bool_decide _); [exact Hsh|].
  case (_ <=? _); [apply seal_ok|]; exact Hsh.
Qed.

Lemma route_ok (P : Sample -> Prop) (now : Z) (s : Sample)
      (shards : list Shard) :
  P s -> Forall (shard_ok P) shards ->
  Forall (shard_ok P) (route hash args now s shards).
Proof.
  intros Hs Hsh. unfold route. apply Forall_alter; [exact Hsh|].
  intros sh _ Hok. apply batcher_add_ok; assumption.
Qed.

Lemma step_ok (P : Sample -> Prop) (ev : Event) (e : Engine) :
  (forall now s, ev = Append now s -> within_ttl args now s = true -> P s) ->
  engine_ok P e -> engine_ok P (step hash args e ev).
Proof.
  intros Hev He. destruct ev as [now s|now]; simpl.
  - unfold append. destruct (within_ttl args now s) eqn:Hw; simpl.
    + unfold engine_ok in *. simpl. apply Forall_fmap.
      eapply Forall_impl; [exact He|]. intros shards Hs. simpl.
      apply route_ok; [|exact Hs]. eapply Hev; eauto.
    + exact He.
  - unfold tick, engine_ok in *. simpl. apply Forall_fmap.
    eapply Forall_impl; [exact He|]. intros shards Hs. simpl.
    apply Forall_fmap. eapply Forall_impl; [exact Hs|].
    intros sh. apply batcher_tick_ok.
Qed.

Lemma accepted_in_app_l (tr evs : list Event) (s : Sample) :
  accepted_in args tr s -> accepted_in args (tr ++ evs) s.
Proof.
  intros (now & Hin & Hr). exists now. split; [|exact Hr].
  apply elem_of_app. left. exact Hin.
Qed.

Lemma run_ok (evs tr : list Event) (e : Engine) :
  engine_ok (accepted_in args tr) e ->
  engine_ok (accepted_in args (tr ++ evs)) (run hash args evs e).
Proof.
  revert tr e. induction evs as [|ev evs IH]; intros tr e He.
  - rewrite app_nil_r. exact He.
  - simpl. replace (tr ++ ev :: evs) with ((tr ++ [ev]) ++ evs)
      by (rewrite <- app_assoc; reflexivity).
    apply IH. apply step_ok.
    + intros now s -> Hw. exists now. split.
      * apply elem_of_app. right. apply list_elem_of_singleton. reflexivity.
      * apply within_ttl_spec. exact Hw.
    + eapply engine_ok_mono; [|exact He]. intros s.
      apply accepted_in_app_l.
Qed.

Lemma new_ok (P : Sample -> Prop) : engine_ok P (new args).
Proof.
  unfold engine_ok, new. simpl. apply Forall_fmap, Forall_forall.
  intros cc _. simpl. apply Forall_replicate. split; constructor.
Qed.

Lemma persisted_batches_ok (P : Sample -> Prop) (e : Engine) (b : Batch)
      (s : Sample) :
  engine_ok P e -> b ∈ persisted_batches e -> s ∈ b.(samples) -> P s.
Proof.
  unfold engine_ok, persisted_batches. intros He Hb Hs.
  apply list_elem_of_bind in Hb as (shards & Hb & Hshards).
  apply list_elem_of_bind in Hb as (sh & Hb & Hsh).
  rewrite Forall_forall in He. specialize (He _ Hshards).
  rewrite Forall_forall in He. destruct (He _ Hsh) as [_ Hp].
  rewrite Forall_forall in Hp. specialize (Hp _ Hb).
  rewrite Forall_forall in Hp. exact (Hp _ Hs).
Qed.
End EngineProperties.

(** The scenario of the specification: with [ttl = 2h], one shard,
    [max_signals_to_batch = 2] and [batch_frequency = 5s], appending A at
    t0, B at t0+1s and C at t0+2s seals {A,B} at the second append, and {C}
    when the timer fires at t0+2s+5s; a tick before that seals nothing. *)
Lemma batcher_scenario :
  let sec := time.Second in
  let t0 := 1000 * sec in
  let cfg :=
    {| Arguments.TTL := 2 * time.Hour;
       Arguments.Serialization :=
         {| Serialization.MaxSignalsToBatch := 2;
            Serialization.BatchFrequency := 5 * sec |};
       Arguments.Endpoints := [EndpointConfig.mk "a" "http://a" None
                                 (30 * sec) sec 0 1000 sec 1 None] |} in
  let A := {| engine.series := ∅; engine.timestamp := t0; engine.value := 1 |} in
  let B := {| engine.series := ∅; engine.timestamp := t0 + sec; engine.value := 2 |} in
  let C := {| engine.series := ∅; engine.timestamp := t0 + 2 * sec; engine.value := 3 |} in
  engine.persisted_batches
    (engine.run (fun _ => 0) cfg
       [engine.Append t0 A; engine.Append (t0 + sec) B;
        engine.Append (t0 + 2 * sec) C; engine.Tick (t0 + 6 * sec);
        engine.Tick (t0 + 7 * sec)]
       (engine.new cfg))
  = [ {| engine.samples := [A; B]; engine.created := t0 + sec; engine.seq := 0 |};
      {| engine.samples := [C]; engine.created := t0 + 7 * sec; engine.seq := 1 |} ].
Proof. reflexivity. Qed.

(** C7.  [append] accepts a sample exactly when its timestamp lies in
    [now - ttl, now]; one older than [now - ttl] is answered
    [Dropped StaleSample], counted, and changes no queue; and over any
    sequence of appends and timer ticks from a fresh engine, every sample
    of every persisted batch was appended within the window, so a rejected
    one is in none. *)
Theorem stale_sample_rejected_and_never_persisted :
  forall (hash : gmap string string -> Z) (args : Arguments.t),
    (forall now s e,
       fst (engine.append hash args now s e) = engine.Accepted <->
       now - args.(Arguments.TTL) <= s.(engine.timestamp) <= now)
    /\ (forall now s e,
          s.(engine.timestamp) < now - args.(Arguments.TTL) ->
          engine.append hash args now s e =
          (engine.Dropped engine.StaleSample,
           {| engine.fanout := e.(engine.fanout);
              engine.stale_dropped := S e.(engine.stale_dropped) |}))
    /\ (forall evs b s,
          b ∈ engine.persisted_batches (engine.run hash args evs (engine.new args)) ->
          s ∈ b.(engine.samples) ->
          exists now, engine.Append now s ∈ evs /\
            now - args.(Arguments.TTL) <= s.(engine.timestamp) <= now).
Proof.
  intros hash args. split; [|split].
  - intros now s e. rewrite <- within_ttl_spec. unfold engine.append.
    destruct (engine.within_ttl args now s); simpl; split; congruence.
  - intros now s e Hold. unfold engine.append.
    destruct (engine.within_ttl args now s) eqn:Hw; [|reflexivity].
    apply within_ttl_spec in Hw. lia.
  - intros evs b s Hb Hs.
    apply (persisted_batches_ok (engine.accepted_in args evs)
             (engine.run hash args evs (engine.new args)) b s); [|exact Hb|exact Hs].
    apply (run_ok hash args evs []). apply new_ok.
Qed.

(** The statement above on a two-hour window with one shard and batches of
    two: a sample three hours old is dropped as stale and counted; after
    two fresh samples the one persisted batch holds samples that were
    appended within the window. *)
Lemma stale_sample_rejected_and_never_persisted_witness :
  let sec := time.Second in
  let t0 := 100000 * sec in
  let cfg :=
    {| Arguments.TTL := 2 * time.Hour;
       Arguments.Serialization :=
         {| Serialization.MaxSignalsToBatch := 2;
            Serialization.BatchFrequency := 5 * sec |};
       Arguments.Endpoints := [EndpointConfig.mk "a" "http://a" None
                                 (30 * sec) sec 0 1000 sec 1 None] |} in
  let old := {| engine.series := ∅; engine.timestamp := t0 - 3 * time.Hour;
                engine.value := 0 |} in
  let A := {| engine.series := ∅; engine.timestamp := t0; engine.value := 1 |} in
  let B := {| engine.series := ∅; engine.timestamp := t0 + sec; engine.value := 2 |} in
  let evs := [engine.Append t0 old; engine.Append t0 A; engine.Append (t0 + sec) B] in
  let b := {| engine.samples := [A; B]; engine.created := t0 + sec; engine.seq := 0 |} in
  old.(engine.timestamp) < t0 - cfg.(Arguments.TTL)
  /\ engine.append (fun _ => 0) cfg t0 old (engine.new cfg) =
     (engine.Dropped engine.StaleSample,
      {| engine.fanout := (engine.new cfg).(engine.fanout);
         engine.stale_dropped := 1 |})
  /\ b ∈ engine.persisted_batches (engine.run (fun _ => 0) cfg evs (engine.new cfg))
  /\ A ∈ b.(engine.samples)
  /\ exists now, engine.Append now A ∈ evs /\
       now - cfg.(Arguments.TTL) <= A.(engine.timestamp) <= now.
Proof.
  intros sec t0 cfg old A B evs b.
  destruct (stale_sample_rejected_and_never_persisted (fun _ => 0) cfg)
    as (_ & Hstale & Hpersisted).
  assert (old.(engine.timestamp) < t0 - cfg.(Arguments.TTL)) as Hold
    by (apply Z.ltb_lt; reflexivity).
  assert (b ∈ engine.persisted_batches
                (engine.run (fun _ => 0) cfg evs (engine.new cfg))) as Hb
    by (apply list_elem_of_singleton; reflexivity).
  assert (A ∈ b.(engine.samples)) as HA by left.
  split; [exact Hold|]. split; [exact (Hstale t0 old (engine.new cfg) Hold)|].
  split; [exact Hb|]. split; [exact HA|].
  exact (Hpersisted evs b A Hb HA).
Defined.

(** * Further properties of [Validate] and [ToNativeType] *)

(** ** Which error [Validate] returns *)

Lemma Validate_range_app (l1 l2 : list EndpointConfig.t) :
  Validate_range (l1 ++ l2) =
  match Validate_range l1 with
  | Some e => Some e
  | None => Validate_range l2
  end.
Proof.
  induction l1 as [|conn l1 IH]; [reflexivity|].
  rewrite <- app_comm_cons, !Validate_range_cons.
  destruct (_ <=? _); [reflexivity|].
  destruct (_ <? _); [reflexivity|]. exact IH.
Qed.

Lemma Validate_range_refused_head (conn : EndpointConfig.t) rest :
  refused conn ->
  Validate_range (conn :: rest) =
  if conn.(EndpointConfig.BatchCount) <=? 0
  then batch_count_error else flush_frequency_error.
Proof.
  intros Hr. rewrite Validate_range_cons.
  destruct (Z.leb_spec conn.(EndpointConfig.BatchCount) 0) as [Hb|Hb];
    [reflexivity|].
  destruct (Z.ltb_spec conn.(EndpointConfig.FlushFrequency) time.Second)
    as [Hf|Hf]; [reflexivity|].
  destruct Hr as [Hr|Hr]; lia.
Qed.

(** X1.  When every endpoint keeps the default [batch_count] and
    [flush_frequency], [Validate] returns nil, whatever the other fields
    of the endpoints, the TTL and the serialization settings are. *)
Theorem Validate_accepts_default_limits :
  forall r : Arguments.t,
    Forall (fun cc => checked_fields cc = checked_fields defaultEndpointConfig)
           r.(Arguments.Endpoints) ->
    result Arguments_Validate r = nil_error.
Proof.
  intros r H. rewrite Validate_result. apply Validate_range_nil_iff.
  eapply Forall_impl; [exact H|]. intros cc Hcc.
  unfold checked_fields in Hcc. injection Hcc as Hb Hf.
  unfold refused. rewrite Hb, Hf. simpl. rewrite Second_ns. lia.
Qed.

Lemma Validate_accepts_default_limits_witness :
  let cc :=
    {| EndpointConfig.Name := "prod"; EndpointConfig.URL := "";
       EndpointConfig.BasicAuth := None; EndpointConfig.Timeout := -1;
       EndpointConfig.RetryBackoff := 0;
       EndpointConfig.MaxRetryBackoffAttempts := 7;
       EndpointConfig.BatchCount := 1000;
       EndpointConfig.FlushFrequency := time.Second;
       EndpointConfig.QueueCount := 0;
       EndpointConfig.ExternalLabels := None |} in
  let r :=
    {| Arguments.TTL := -5;
       Arguments.Serialization := Serialization.mk 0 0;
       Arguments.Endpoints := [cc; defaultEndpointConfig] |} in
  result Arguments_Validate r = nil_error.
Proof.
  intros cc r. apply (Validate_accepts_default_limits r).
  repeat (apply Forall_cons_2; [reflexivity|]). apply Forall_nil_2.
Defined.

(** [SetToDefault] followed by [Validate] succeeds from every prior state,
    and leaves the defaults in place. *)
Lemma SetToDefault_then_Validate_nil (rc : Arguments.t) :
  result SetToDefault_then_Validate rc = nil_error /\
  final SetToDefault_then_Validate rc = defaultArgs.
Proof.
  unfold SetToDefault_then_Validate.
  rewrite result_bind, final_bind, SetToDefault_final, Validate_read_only.
  split; reflexivity.
Qed.

(** X2.  [Validate] reports the first refused endpoint in configuration
    order and stops there: when the endpoints before it pass, the error is
    the [batch_count] one if that endpoint's [batch_count] is not positive
    (also when its [flush_frequency] is too small as well), and the
    [flush_frequency] one otherwise; the endpoints after it do not
    matter. *)
Theorem Validate_reports_first_refused :
  forall (r : Arguments.t) (pre post : list EndpointConfig.t)
         (conn : EndpointConfig.t),
    r.(Arguments.Endpoints) = pre ++ conn :: post ->
    Forall (fun c => ~ refused c) pre ->
    refused conn ->
    result Arguments_Validate r =
    if conn.(EndpointConfig.BatchCount) <=? 0
    then batch_count_error else flush_frequency_error.
Proof.
  intros r pre post conn Hr Hpre Hconn.
  rewrite Validate_result, Hr, Validate_range_app.
  apply Validate_range_nil_iff in Hpre. rewrite Hpre.
  apply Validate_range_refused_head, Hconn.
Qed.

Lemma Validate_reports_first_refused_witness :
  let both :=
    with_BatchCount (-3)
      (with_FlushFrequency (10 * time.Millisecond) defaultEndpointConfig) in
  let slow := with_FlushFrequency 999999999 defaultEndpointConfig in
  result Arguments_Validate
    (with_Endpoints [defaultEndpointConfig; both; slow] defaultArgs)
    = batch_count_error
  /\ result Arguments_Validate
       (with_Endpoints [defaultEndpointConfig; slow; both] defaultArgs)
     = flush_frequency_error.
Proof.
  intros both slow. split.
  - apply (Validate_reports_first_refused
             (with_Endpoints [defaultEndpointConfig; both; slow] defaultArgs)
             [defaultEndpointConfig] [slow] both eq_refl).
    + apply Forall_cons_2; [|apply Forall_nil_2].
      unfold refused. simpl. rewrite Second_ns. lia.
    + left. simpl. lia.
  - apply (Validate_reports_first_refused
             (with_Endpoints [defaultEndpointConfig; slow; both] defaultArgs)
             [defaultEndpointConfig] [both] slow eq_refl).
    + apply Forall_cons_2; [|apply Forall_nil_2].
      unfold refused. simpl. rewrite Second_ns. lia.
    + right. simpl. rewrite Second_ns. lia.
Defined.

Lemma Validate_range_outcome (conns : list EndpointConfig.t) :
  (Validate_range conns = nil_error /\ Forall (fun c => ~ refused c) conns)
  \/ (Validate_range conns = batch_count_error /\
      exists conn, conn ∈ conns /\ conn.(EndpointConfig.BatchCount) <= 0)
  \/ (Validate_range conns = flush_frequency_error /\
      exists conn, conn ∈ conns /\ 0 < conn.(EndpointConfig.BatchCount) /\
        conn.(EndpointConfig.FlushFrequency) < time.Second).
Proof.
  induction conns as [|conn rest IH].
  - left. split; [reflexivity|constructor].
  - rewrite Validate_range_cons.
    destruct (Z.leb_spec conn.(EndpointConfig.BatchCount) 0) as [Hb|Hb].
    { right. left. split; [reflexivity|]. exists conn. split; [left|exact Hb]. }
    destruct (Z.ltb_spec conn.(EndpointConfig.FlushFrequency) time.Second)
      as [Hf|Hf].
    { right. right. split; [reflexivity|]. exists conn.
      split; [left|split; assumption]. }
    destruct IH as [[He Hall]|[[He (c & Hin & Hc)]|[He (c & Hin & Hc)]]].
    + left. split; [exact He|]. apply Forall_cons_2; [|exact Hall].
      unfold refused. lia.
    + right. left. split; [exact He|]. exists c. split; [right; exact Hin|exact Hc].
    + right. right. split; [exact He|]. exists c.
      split; [right; exact Hin|exact Hc].
Qed.

(** X3.  [Validate] has three outcomes only, and each tells the truth: nil,
    and then no endpoint is refused; the [batch_count] error, and then some
    endpoint has [batch_count <= 0]; or the [flush_frequency] error, and
    then some endpoint with a positive [batch_count] has
    [flush_frequency < 1s]. *)
Theorem Validate_outcomes :
  forall r : Arguments.t,
    let conns := r.(Arguments.Endpoints) in
    (result Arguments_Validate r = nil_error /\
     Forall (fun c => 1 <= c.(EndpointConfig.BatchCount) /\
                      1000000000 <= c.(EndpointConfig.FlushFrequency)) conns)
    \/ (result Arguments_Validate r = batch_count_error /\
        exists conn, conn ∈ conns /\ conn.(EndpointConfig.BatchCount) <= 0)
    \/ (result Arguments_Validate r = flush_frequency_error /\
        exists conn, conn ∈ conns /\ 0 < conn.(EndpointConfig.BatchCount) /\
          conn.(EndpointConfig.FlushFrequency) < 1000000000).
Proof.
  intros r conns. subst conns. rewrite Validate_result.
  destruct (Validate_range_outcome r.(Arguments.Endpoints)) as [[He H]|[H|H]].
  - left. split; [exact He|]. eapply Forall_impl; [exact H|].
    intros c Hc. unfold refused in Hc. rewrite Second_ns in Hc. lia.
  - right. left. exact H.
  - right. right. exact H.
Qed.

(** ** What [Validate] looks at *)

Lemma Validate_range_checked_fields (l1 l2 : list EndpointConfig.t) :
  checked_fields <$> l1 = checked_fields <$> l2 ->
  Validate_range l1 = Validate_range l2.
Proof.
  revert l2. induction l1 as [|c1 l1 IH]; intros [|c2 l2] H;
    try discriminate; [reflexivity|].
  rewrite !fmap_cons in H. injection H as Hb Hf Hrest.
  rewrite !Validate_range_cons, Hb, Hf, (IH l2 Hrest). reflexivity.
Qed.

(** X4.  [Validate] reads nothing but the [batch_count] and the
    [flush_frequency] of each endpoint: two configurations whose endpoint
    lists agree on these two fields, position by position, get the same
    answer.  TTL, serialization settings, URL, timeouts, retry settings and
    [queue_count] are never checked. *)
Theorem Validate_reads_only_checked_fields :
  forall r1 r2 : Arguments.t,
    checked_fields <$> r1.(Arguments.Endpoints) =
    checked_fields <$> r2.(Arguments.Endpoints) ->
    result Arguments_Validate r1 = result Arguments_Validate r2.
Proof.
  intros r1 r2 H. rewrite !Validate_result.
  apply Validate_range_checked_fields, H.
Qed.

Lemma Validate_reads_only_checked_fields_witness :
  let odd :=
    {| EndpointConfig.Name := ""; EndpointConfig.URL := "";
       EndpointConfig.BasicAuth := None; EndpointConfig.Timeout := -30;
       EndpointConfig.RetryBackoff := -1;
       EndpointConfig.MaxRetryBackoffAttempts := 0;
       EndpointConfig.BatchCount := 1000;
       EndpointConfig.FlushFrequency := time.Second;
       EndpointConfig.QueueCount := 0;
       EndpointConfig.ExternalLabels := Some ∅ |} in
  let r1 :=
    {| Arguments.TTL := 0;
       Arguments.Serialization := Serialization.mk (-1) (-1);
       Arguments.Endpoints := [odd] |} in
  let r2 := with_Endpoints [defaultEndpointConfig] defaultArgs in
  result Arguments_Validate r1 = result Arguments_Validate r2
  /\ result Arguments_Validate r1 = nil_error.
Proof.
  intros odd r1 r2. split; [|reflexivity].
  apply (Validate_reads_only_checked_fields r1 r2). reflexivity.
Defined.

(** X5.  Validating a concatenation of two endpoint lists gives the error
    of the first list when it has one, and otherwise the answer for the
    second list. *)
Theorem Validate_app :
  forall (r : Arguments.t) (l1 l2 : list EndpointConfig.t),
    result Arguments_Validate (with_Endpoints (l1 ++ l2) r) =
    match result Arguments_Validate (with_Endpoints l1 r) with
    | Some e => Some e
    | None => result Arguments_Validate (with_Endpoints l2 r)
    end.
Proof.
  intros r l1 l2. rewrite !Validate_result. simpl. apply Validate_range_app.
Qed.

(** X6.  Adding endpoints never repairs a configuration: when [Validate]
    fails on a list of endpoints it fails on every list that contains
    them all, in whatever order and multiplicity. *)
Theorem Validate_error_monotone :
  forall (r : Arguments.t) (l1 l2 : list EndpointConfig.t),
    l1 ⊆ l2 ->
    result Arguments_Validate (with_Endpoints l1 r) <> nil_error ->
    result Arguments_Validate (with_Endpoints l2 r) <> nil_error.
Proof.
  intros r l1 l2 Hsub. rewrite !Validate_result. simpl.
  rewrite !Validate_range_error, !Exists_exists.
  intros (conn & Hin & Hr). exists conn. split; [apply Hsub, Hin|exact Hr].
Qed.

Lemma Validate_error_monotone_witness :
  let bad := with_BatchCount 0 defaultEndpointConfig in
  result Arguments_Validate
    (with_Endpoints [defaultEndpointConfig; defaultEndpointConfig; bad]
       defaultArgs) <> nil_error.
Proof.
  intros bad.
  apply (Validate_error_monotone defaultArgs [bad]
           [defaultEndpointConfig; defaultEndpointConfig; bad]).
  - intros x Hx. apply list_elem_of_singleton in Hx. subst x.
    right. right. left.
  - discriminate.
Defined.

(** X7.  Reordering the endpoints never changes whether [Validate]
    accepts a configuration, but it can change which error is reported. *)
Theorem Validate_order :
  (forall (r : Arguments.t) (l1 l2 : list EndpointConfig.t),
     l1 ≡ₚ l2 ->
     (result Arguments_Validate (with_Endpoints l1 r) = nil_error <->
      result Arguments_Validate (with_Endpoints l2 r) = nil_error))
  /\ (exists (r : Arguments.t) (l1 l2 : list EndpointConfig.t),
        l1 ≡ₚ l2 /\
        result Arguments_Validate (with_Endpoints l1 r) <>
        result Arguments_Validate (with_Endpoints l2 r)).
Proof.
  split.
  - intros r l1 l2 Hp. rewrite !Validate_result. simpl.
    rewrite !Validate_range_nil_iff, Hp. reflexivity.
  - exists defaultArgs,
      [with_BatchCount 0 defaultEndpointConfig;
       with_FlushFrequency 1 defaultEndpointConfig],
      [with_FlushFrequency 1 defaultEndpointConfig;
       with_BatchCount 0 defaultEndpointConfig].
    split; [apply Permutation_swap|discriminate].
Qed.

(** ** [Validate] and [ToNativeType] together *)

Lemma ToNativeType_BatchCount (g : Globals.t) (cc : EndpointConfig.t) :
  (EndpointConfig_ToNativeType g cc).(types.ConnectionConfig.BatchCount) =
  cc.(EndpointConfig.BatchCount).
Proof. native_field cc. Qed.

Lemma ToNativeType_FlushFrequency (g : Globals.t) (cc : EndpointConfig.t) :
  (EndpointConfig_ToNativeType g cc).(types.ConnectionConfig.FlushFrequency) =
  cc.(EndpointConfig.FlushFrequency).
Proof. native_field cc. Qed.

(** X8.  The limits [Validate] checks are limits on the native
    configurations: [Validate] returns nil exactly when every endpoint
    converts to a native configuration with [BatchCount >= 1] and
    [FlushFrequency >= 1s]; and there is one native configuration per
    endpoint. *)
Theorem validated_native_limits :
  forall (g : Globals.t) (r : Arguments.t),
    length (native_endpoints g r) = length r.(Arguments.Endpoints) /\
    (result Arguments_Validate r = nil_error <->
     Forall (fun tcc => 1 <= tcc.(types.ConnectionConfig.BatchCount) /\
                        1000000000 <= tcc.(types.ConnectionConfig.FlushFrequency))
            (native_endpoints g r)).
Proof.
  intros g r. unfold native_endpoints. split; [apply length_fmap|].
  rewrite Validate_result, Validate_range_nil_iff, Forall_fmap.
  apply Forall_iff. intros cc. simpl.
  rewrite ToNativeType_BatchCount, ToNativeType_FlushFrequency.
  unfold refused. rewrite Second_ns. lia.
Qed.

(** ** What [ToNativeType] keeps *)

Lemma ToNativeType_with_Name (g : Globals.t) (name : string)
      (cc : EndpointConfig.t) :
  EndpointConfig_ToNativeType g (with_Name name cc) =
  EndpointConfig_ToNativeType g cc.
Proof.
  unfold EndpointConfig_ToNativeType. simpl.
  destruct cc.(EndpointConfig.BasicAuth); reflexivity.
Qed.

Lemma native_BasicAuth_inj (a b : BasicAuth.t) :
  native_BasicAuth a = native_BasicAuth b -> a = b.
Proof.
  destruct a as [ua [pa]], b as [ub [pb]]. unfold native_BasicAuth. simpl.
  intros H. injection H as -> ->. reflexivity.
Qed.

(** X9.  The name is the only thing [ToNativeType] drops: two endpoints
    convert to the same native configuration exactly when they agree on
    every field other than [Name] (passwords compared by their string
    value). *)
Theorem ToNativeType_injective_up_to_Name :
  forall (g : Globals.t) (cc1 cc2 : EndpointConfig.t),
    EndpointConfig_ToNativeType g cc1 = EndpointConfig_ToNativeType g cc2 <->
    with_Name cc1.(EndpointConfig.Name) cc2 = cc1.
Proof.
  intros g cc1 cc2. split.
  - intros H.
    pose proof (f_equal types.ConnectionConfig.BasicAuth H) as Hba.
    rewrite !ToNativeType_BasicAuth in Hba.
    assert (cc1.(EndpointConfig.BasicAuth) = cc2.(EndpointConfig.BasicAuth))
      as Hauth.
    { destruct cc1.(EndpointConfig.BasicAuth) as [a|],
               cc2.(EndpointConfig.BasicAuth) as [b|];
        simpl in Hba; try discriminate; [|reflexivity].
      assert (native_BasicAuth a = native_BasicAuth b) as Hn by congruence.
      apply native_BasicAuth_inj in Hn. rewrite Hn. reflexivity. }
    destruct cc1 as [n1 u1 a1 t1 b1 m1 c1 f1 q1 l1],
             cc2 as [n2 u2 a2 t2 b2 m2 c2 f2 q2 l2].
    simpl in Hauth. subst a2.
    unfold EndpointConfig_ToNativeType, with_Name in *. simpl in *.
    destruct a1; injection H as -> -> -> -> -> -> -> ->; reflexivity.
  - intros H. rewrite <- H. apply ToNativeType_with_Name.
Qed.

(** ** The user agent and the build version *)

(** X10.  Under the initial value of [UserAgent], every native
    configuration carries "Alloy/" followed by the build version, the same
    for all endpoints; two builds convert an endpoint to the same native
    configuration exactly when their version strings are equal. *)
Theorem ToNativeType_UserAgent_of_version :
  forall (v1 v2 : string) (cc cc' : EndpointConfig.t),
    (EndpointConfig_ToNativeType (init_Globals v1) cc).(types.ConnectionConfig.UserAgent)
      = "Alloy/" +:+ v1
    /\ (EndpointConfig_ToNativeType (init_Globals v1) cc).(types.ConnectionConfig.UserAgent)
       = (EndpointConfig_ToNativeType (init_Globals v1) cc').(types.ConnectionConfig.UserAgent)
    /\ (EndpointConfig_ToNativeType (init_Globals v1) cc =
        EndpointConfig_ToNativeType (init_Globals v2) cc <-> v1 = v2).
Proof.
  intros v1 v2 cc cc'. rewrite !ToNativeType_UserAgent.
  split; [reflexivity|]. split; [reflexivity|]. split.
  - intros H. apply (f_equal types.ConnectionConfig.UserAgent) in H.
    rewrite !ToNativeType_UserAgent in H. unfold init_Globals in H.
    simpl in H. injection H as H. exact H.
  - intros ->. reflexivity.
Qed.
